(** * The Skye release packager ([publish.py])

    The script resets the [publish] directory, shells out to the build
    command, stages the built binary, the licence and the library tree in
    [tmp], zips the staging directory into
    [publish/Skye-<arch>-<platform>.zip] and removes [tmp] again.

    The development has three layers:
    - a model of the working directory and of the [os], [shutil] and [sys]
      calls the script makes (files and directories only: links, special
      files and permissions are outside the model, and a path is the list of
      its components, so neither the separator nor the drive matters);
    - the script itself ([PLATFORM], [ARCH], [pack] and the module body
      [main]), written call for call as in the source;
    - the properties of a run. *)

From Stdlib Require Import ZArith.
From stdpp Require Import gmap strings list fin_maps.

#[local] Open Scope Z_scope.
#[local] Open Scope string_scope.

(** ** Working directory *)

(** A regular file holds bytes; a zip archive is a regular file too, described
    by the tree of its members (the member named [a/b] is the node reached by
    the path [a; b]); a directory maps names to nodes. *)
#[warnings="-register-all"]
Inductive node :=
| File (data : string)
| Archive (members : gmap string node)
| Dir (entries : gmap string node).

Abbreviation tree := (gmap string node).
Abbreviation path := (list string).

Definition is_dir (n : node) : bool :=
  match n with Dir _ => true | _ => false end.

(** Exceptions the calls below can raise. [SystemExit] is the one [sys.exit]
    raises; the others are the [OSError] subclasses of the same name, and
    [SameFileError] is [shutil]'s. *)
Inductive exn :=
| FileNotFoundError
| FileExistsError
| NotADirectoryError
| IsADirectoryError
| SameFileError
| SystemExit (code : Z).

Inductive result (A : Type) :=
| Return (a : A)
| Raise (e : exn).
Arguments Return {A} a.
Arguments Raise {A} e.

#[export] Instance result_ret : MRet result := λ A a, Return a.
#[export] Instance result_bind : MBind result := λ A B f r,
  match r with Return a => f a | Raise e => Raise e end.

(** [stat d p]: the node the path [p] names below the directory [d]. A missing
    component is [ENOENT], a component that is not a directory but is followed
    by more components is [ENOTDIR]. The empty path is the directory itself. *)
Fixpoint stat (d : tree) (p : path) : result node :=
  match p with
  | [] => Return (Dir d)
  | x :: q =>
      match d !! x with
      | None => Raise FileNotFoundError
      | Some n =>
          match q with
          | [] => Return n
          | _ => match n with
                 | Dir c => stat c q
                 | _ => Raise NotADirectoryError
                 end
          end
      end
  end.

(** The same as an option: [resolve d p] is the node at [p], if any. *)
Definition resolve (d : tree) (p : path) : option node :=
  match stat d p with Return n => Some n | Raise _ => None end.

(** [put d p n]: bind the last component of [p] to [n]; the directories on the
    way must exist. *)
Fixpoint put (d : tree) (p : path) (n : node) : result tree :=
  match p with
  | [] => Raise FileNotFoundError
  | x :: q =>
      match q with
      | [] => Return (<[x := n]> d)
      | _ => match d !! x with
             | None => Raise FileNotFoundError
             | Some (Dir c) => c' ← put c q n; Return (<[x := Dir c']> d)
             | Some _ => Raise NotADirectoryError
             end
      end
  end.

(** [drop d p]: unbind the last component of [p]. *)
Fixpoint drop (d : tree) (p : path) : result tree :=
  match p with
  | [] => Raise FileNotFoundError
  | x :: q =>
      match q with
      | [] => Return (delete x d)
      | _ => match d !! x with
             | None => Raise FileNotFoundError
             | Some (Dir c) => c' ← drop c q; Return (<[x := Dir c']> d)
             | Some _ => Raise NotADirectoryError
             end
      end
  end.

(** [makedirs d p]: create the directory [p] and the missing directories on
    the way ([exist_ok=False]: the last component must be new). *)
Fixpoint makedirs (d : tree) (p : path) : result tree :=
  match p with
  | [] => Raise FileExistsError
  | x :: q =>
      match q with
      | [] => match d !! x with
              | None => Return (<[x := Dir ∅]> d)
              | Some _ => Raise FileExistsError
              end
      | _ => match d !! x with
             | None => c' ← makedirs ∅ q; Return (<[x := Dir c']> d)
             | Some (Dir c) => c' ← makedirs c q; Return (<[x := Dir c']> d)
             | Some _ => Raise NotADirectoryError
             end
      end
  end.

(** ** The process *)

(** One call of [os.system]: the command line, the working directory the
    command found, the value [os.system] returned and the working directory
    the command left. *)
Record spawn := Spawn {
  command : string;
  before : tree;
  status : Z;
  after : tree
}.

(** What a run can change: the working directory, and the record of the
    commands it has run (a ghost field: no call reads it). *)
Record world := World {
  cwd : tree;
  spawned : list spawn
}.

(** A Python computation: it ends with a value or an exception, and in both
    cases leaves a world behind (what was written before an exception stays
    written). *)
Definition py (A : Type) : Type := world → result A * world.

#[export] Instance py_ret : MRet py := λ A a w, (Return a, w).
#[export] Instance py_bind : MBind py := λ A B f m w,
  match m w with
  | (Return a, w') => f a w'
  | (Raise e, w') => (Raise e, w')
  end.

Definition raise {A : Type} (e : exn) : py A := λ w, (Raise e, w).
Definition getcwd : py tree := λ w, (Return (cwd w), w).
Definition setcwd (d : tree) : py unit :=
  λ w, (Return tt, World d (spawned w)).
Definition lift {A : Type} (r : result A) : py A := λ w, (r, w).

(** How the process ends: normally or through [sys.exit] with an exit status,
    or with the traceback of an exception nobody caught. The two are kept
    apart by the way the process ends, not by a status: after a traceback
    CPython exits with status 1 as well. *)
Inductive termination :=
| Exit (status : Z)
| Traceback (e : exn).

Definition outcome (r : result unit) : termination :=
  match r with
  | Return _ => Exit 0
  | Raise (SystemExit c) => Exit c
  | Raise e => Traceback e
  end.

(** ** The library calls of the script *)

(** [os.path.join] of single components. *)
Definition os_path_join (parts : list string) : path := parts.

Definition os_path_basename (p : path) : string := List.last p "".

Definition os_path_dirname (p : path) : path := removelast p.

Definition os_path_exists (p : path) : py bool :=
  d ← getcwd;
  mret (match stat d p with Return _ => true | Raise _ => false end).

Definition os_mkdir (p : path) : py unit :=
  d ← getcwd;
  match stat d p with
  | Return _ => raise FileExistsError
  | Raise _ => d' ← lift (put d p (Dir ∅)); setcwd d'
  end.

Definition os_makedirs (p : path) : py unit :=
  d ← getcwd;
  d' ← lift (makedirs d p);
  setcwd d'.

(** [shutil.rmtree]: the path must name a directory; it goes with all it
    holds. *)
Definition shutil_rmtree (p : path) : py unit :=
  d ← getcwd;
  n ← lift (stat d p);
  match n with
  | Dir _ => d' ← lift (drop d p); setcwd d'
  | _ => raise NotADirectoryError
  end.

(** [shutil.copyfile]: the source is opened for reading, then the destination
    for writing (created, or truncated when it is a regular file). *)
Definition shutil_copyfile (src dst : path) : py unit :=
  d ← getcwd;
  if bool_decide (src = dst) && bool_decide (is_Some (resolve d src))
  then raise SameFileError
  else
    n ← lift (stat d src);
    match n with
    | Dir _ => raise IsADirectoryError
    | _ =>
        match stat d dst with
        | Return (Dir _) => raise IsADirectoryError
        | _ => d' ← lift (put d dst n); setcwd d'
        end
    end.

(** [shutil.copy]: into a directory the file keeps its name. *)
Definition shutil_copy (src dst : path) : py unit :=
  d ← getcwd;
  match stat d dst with
  | Return (Dir _) => shutil_copyfile src (dst ++ [os_path_basename src])
  | _ => shutil_copyfile src dst
  end.

(** [shutil.copytree] with its defaults: the source is listed, the destination
    is made with [os.makedirs] (so it must be new), and the tree is copied
    below it. *)
Definition shutil_copytree (src dst : path) : py unit :=
  d ← getcwd;
  n ← lift (stat d src);
  match n with
  | Dir c =>
      os_makedirs dst;;
      d1 ← getcwd;
      d' ← lift (put d1 dst (Dir c));
      setcwd d'
  | _ => raise NotADirectoryError
  end.

(** The archive formats of [shutil.make_archive] the script uses. *)
Inductive archive_format := zip.

Definition extension (format : archive_format) : string :=
  match format with zip => ".zip" end.

(** [base_name + ext]: the extension goes on the last component. *)
Fixpoint add_extension (base_name : path) (ext : string) : path :=
  match base_name with
  | [] => [ext]
  | [x] => [x +:+ ext]
  | x :: q => x :: add_extension q ext
  end.

(** [shutil._make_zipfile base_name "." root_dir=root_dir]: the directory of
    the archive is made when it is missing, the archive is opened for writing
    and every entry below [root_dir] is added under its path relative to
    [root_dir]. (An archive written below [root_dir] itself is outside the
    model, and so are the metadata of the members and a zip writer that gives
    up part-way, as it does on a timestamp before 1980, leaving a partial
    archive.) *)
Definition _make_zipfile (base_name : path) (format : archive_format)
    (root_dir : path) : py path :=
  let zip_filename := add_extension base_name (extension format) in
  let archive_dir := os_path_dirname base_name in
  found ← os_path_exists archive_dir;
  (if bool_decide (archive_dir ≠ []) && negb found
   then os_makedirs archive_dir else mret tt);;
  d ← getcwd;
  match stat d zip_filename with
  | Return (Dir _) => raise IsADirectoryError
  | _ =>
      let walked := match stat d root_dir with
                    | Return (Dir c) => c
                    | _ => ∅
                    end in
      d' ← lift (put d zip_filename (Archive walked));
      setcwd d';;
      mret zip_filename
  end.

(** [shutil.make_archive base_name format root_dir]: [root_dir] must be a
    directory. *)
Definition shutil_make_archive (base_name : path) (format : archive_format)
    (root_dir : path) : py path :=
  d ← getcwd;
  n ← lift (stat d root_dir);
  match n with
  | Dir _ => _make_zipfile base_name format root_dir
  | _ => raise NotADirectoryError
  end.

Definition sys_exit {A : Type} (code : Z) : py A := raise (SystemExit code).

(** ** The host *)

(** What the script asks of the machine it runs on: [platform.system()],
    [platform.machine()], and the shell behind [os.system], which maps a
    command line and the working directory it finds to the value [os.system]
    returns and the working directory it leaves. The two strings are taken to
    hold no path separator: each is part of one path component. *)
Record host := Host {
  platform_system : string;
  platform_machine : string;
  shell : string → tree → Z * tree
}.

(** ** The script *)

Section Publish.
Context (h : host).

Definition os_system (cmd : string) : py Z := λ w,
  let r := shell h cmd (cwd w) in
  (Return r.1,
   World r.2 (spawned w ++ [Spawn cmd (cwd w) r.1 r.2])).

(** Lines 6 to 8. *)
Definition PLATFORM : string :=
  if (platform_system h =? "Darwin")%string then "macOS"
  else platform_system h.

Definition ARCH : string := platform_machine h.

(** Line 17: the name of the built binary. *)
Definition binary_name : string :=
  if (PLATFORM =? "Windows")%string then "skye.exe" else "skye".

(** Line 22: the f-string [Skye-{ARCH}-{PLATFORM}]. *)
Definition archive_stem : string := "Skye-" +:+ ARCH +:+ "-" +:+ PLATFORM.

(** Lines 11 to 26. *)
Definition pack (cmd : string) : py unit :=
  code ← os_system cmd;
  (if negb (code =? 0)%Z then sys_exit 1 else mret tt);;
  os_mkdir ["tmp"];;
  shutil_copy (os_path_join ["target"; "release"; binary_name]) ["tmp"];;
  shutil_copy ["LICENSE"] ["tmp"];;
  shutil_copytree ["lib"] (os_path_join ["tmp"; "lib"]);;
  shutil_make_archive (os_path_join ["publish"; archive_stem]) zip ["tmp"];;
  shutil_rmtree ["tmp"].

(** Lines 15 to 26 on their own: what [pack] goes on to do once the build
    has succeeded (see [pack_staging]). *)
Definition staging : py unit :=
  os_mkdir ["tmp"];;
  shutil_copy (os_path_join ["target"; "release"; binary_name]) ["tmp"];;
  shutil_copy ["LICENSE"] ["tmp"];;
  shutil_copytree ["lib"] (os_path_join ["tmp"; "lib"]);;
  shutil_make_archive (os_path_join ["publish"; archive_stem]) zip ["tmp"];;
  shutil_rmtree ["tmp"].

(** Lines 29 to 34: the module body. *)
Definition main : py unit :=
  found ← os_path_exists ["publish"];
  (if (found : bool) then shutil_rmtree ["publish"] else mret tt);;
  os_mkdir ["publish"];;
  pack "cargo build --release".

(** One run of the script in the working directory [fs]. *)
Definition run (fs : tree) : result unit * world := main (World fs []).

End Publish.

(** ** Vocabulary of the properties *)

(** The name of the archive inside [publish]. *)
Definition archive_name (h : host) : string := archive_stem h +:+ ".zip".

(** The contents of the staging directory of a complete pass: the binary
    under its name, the licence and the library tree. *)
Definition staged (h : host) (bin lic : node) (library : tree) : tree :=
  <["lib" := Dir library]> (<["LICENSE" := lic]> {[binary_name h := bin]}).

(** The build command keeps to its own output directory [target]: whatever
    else is in the working directory is left as it was found. *)
Definition cargo_like (h : host) : Prop :=
  ∀ cmd d x, x ≠ "target" → (shell h cmd d).2 !! x = d !! x.

(** The world in which [os.system cmd] leaves a run that called it in [w]. *)
Definition built (h : host) (cmd : string) (w : world) : world :=
  let r := shell h cmd (cwd w) in
  World r.2 (spawned w ++ [Spawn cmd (cwd w) r.1 r.2]).

(** The one call of the build command a run makes, if it gets that far:
    [publish] has been emptied, nothing else has been touched yet. *)
Definition build_call (h : host) (fs : tree) : spawn :=
  let fs1 := <["publish" := Dir ∅]> fs in
  let r := shell h "cargo build --release" fs1 in
  Spawn "cargo build --release" fs1 r.1 r.2.

(** The world a pass leaves when it stops with [c] in the staging
    directory, and the one it leaves when it ends with [pub] in [publish]. *)
Definition stray (w : world) (c : tree) : world :=
  World (<["tmp" := Dir c]> (cwd w)) (spawned w).

Definition published (w : world) (pub : tree) : world :=
  World (<["publish" := Dir pub]> (cwd w)) (spawned w).


(** ** The specification's wording *)

(** The archive name as the specification gives it, from the raw strings
    the host reports: [Skye-<architecture>-<platform>.zip], the platform being
    the OS name with ["Darwin"] rewritten to ["macOS"]. *)
Definition spec_platform (os_name : string) : string :=
  if bool_decide (os_name = "Darwin") then "macOS" else os_name.


(** The binary name chosen by a test of the detected platform, and by a test
    of the raw OS name. *)
Definition spec_binary_name (platform : string) : string :=
  if bool_decide (platform = "Windows") then "skye.exe" else "skye".

Definition raw_binary_name (os_name : string) : string :=
  if bool_decide (os_name = "Windows") then "skye.exe" else "skye".

(** ** Scenarios *)

(** A checkout with a licence and a library holding [a.txt] and
    [sub/b.txt]. *)
Definition library : tree :=
  {[ "a.txt" := File "a"; "sub" := Dir {[ "b.txt" := File "b" ]} ]}.

Definition checkout : tree :=
  {[ "LICENSE" := File "MIT"; "lib" := Dir library ]}.

(** A build that succeeds and writes [target/release/<name>], and one that
    fails with exit status 2 (which [os.system] reports as [2 * 256] on
    POSIX) and writes nothing. *)
Definition cargo (name : string) (cmd : string) (d : tree) : Z * tree :=
  (0, <["target" := Dir {[ "release" := Dir {[ name := File "ELF" ]} ]}]> d).

Definition cargo_broken (cmd : string) (d : tree) : Z * tree := (512, d).

Definition linux : host := Host "Linux" "x86_64" (cargo "skye").
Definition macbook : host := Host "Darwin" "arm64" (cargo "skye").
Definition windows : host := Host "Windows" "AMD64" (cargo "skye.exe").
Definition linux_broken : host := Host "Linux" "x86_64" cargo_broken.

(** The world after one run of the packager in the checkout, and after a
    second run in what the first one left. *)
Definition once : world := (run linux checkout).2.
Definition twice : world := (run linux (cwd once)).2.

(** * Properties *)

(** ** The scenarios, run *)

Example run_linux : (run linux checkout).1 = Return tt.
Proof. vm_compute. reflexivity. Qed.

Example run_linux_publish :
  cwd (run linux checkout).2 !! "publish"
  = Some (Dir {[ "Skye-x86_64-Linux.zip"
                 := Archive {[ "skye" := File "ELF"; "LICENSE" := File "MIT";
                               "lib" := Dir library ]} ]}).
Proof. vm_compute. reflexivity. Qed.

Example run_macbook_publish :
  cwd (run macbook checkout).2 !! "publish"
  = Some (Dir {[ "Skye-arm64-macOS.zip"
                 := Archive {[ "skye" := File "ELF"; "LICENSE" := File "MIT";
                               "lib" := Dir library ]} ]}).
Proof. vm_compute. reflexivity. Qed.

Example run_windows_publish :
  cwd (run windows checkout).2 !! "publish"
  = Some (Dir {[ "Skye-AMD64-Windows.zip"
                 := Archive {[ "skye.exe" := File "ELF";
                               "LICENSE" := File "MIT";
                               "lib" := Dir library ]} ]}).
Proof. vm_compute. reflexivity. Qed.

Example run_broken :
  run linux_broken checkout
  = (Raise (SystemExit 1),
     World (<["publish" := Dir ∅]> checkout)
       [Spawn "cargo build --release" (<["publish" := Dir ∅]> checkout) 512
          (<["publish" := Dir ∅]> checkout)]).
Proof. vm_compute. reflexivity. Qed.

Example run_stale_tmp :
  (run linux (<["tmp" := Dir ∅]> checkout)).1 = Raise FileExistsError.
Proof. vm_compute. reflexivity. Qed.

Example run_publish_is_a_file :
  run linux (<["publish" := File "notes"]> checkout)
  = (Raise NotADirectoryError,
     World (<["publish" := File "notes"]> checkout) []).
Proof. vm_compute. reflexivity. Qed.

Example run_without_licence :
  (run linux (delete "LICENSE" checkout)).1 = Raise FileNotFoundError
  ∧ cwd (run linux (delete "LICENSE" checkout)).2 !! "tmp"
    = Some (Dir {[ "skye" := File "ELF" ]})
  ∧ cwd (run linux (delete "LICENSE" checkout)).2 !! "publish"
    = Some (Dir ∅).
Proof. vm_compute. auto. Qed.

Example run_twice :
  (run linux (cwd once)).1 = Return tt
  ∧ cwd twice !! "publish" = cwd once !! "publish"
  ∧ cwd twice !! "tmp" = None.
Proof. vm_compute. auto. Qed.

(** ** The monad *)

Lemma bind_unfold {A B : Type} (m : py A) (f : A → py B) (w : world) :
  (m ≫= f) w =
  match m w with
  | (Return a, w') => f a w'
  | (Raise e, w') => (Raise e, w')
  end.
Proof. reflexivity. Qed.

Lemma world_eta (w : world) : World (cwd w) (spawned w) = w.
Proof. by destruct w. Qed.

(** ** Paths of one and two components *)

Lemma stat_insert_ne (d : tree) (x y : string) (q : path) (n : node) :
  x ≠ y → stat (<[y := n]> d) (x :: q) = stat d (x :: q).
Proof. intros Hxy. simpl. by rewrite lookup_insert_ne. Qed.

(** The two ways a lookup fails. *)
Lemma stat_raises (d : tree) (p : path) (e : exn) :
  stat d p = Raise e → e = FileNotFoundError ∨ e = NotADirectoryError.
Proof.
  revert d. induction p as [|x q IH]; intros d Hstat; [done|].
  simpl in Hstat.
  destruct (d !! x) as [n|]; [|left; congruence].
  destruct q as [|y q]; [done|].
  destruct n as [| |c]; [right; congruence..|].
  by apply (IH c).
Qed.

(** ** The library calls, evaluated at the paths the script uses *)

Lemma os_path_exists_top (x : string) (w : world) :
  os_path_exists [x] w =
  (Return (match cwd w !! x with Some _ => true | None => false end), w).
Proof.
  unfold os_path_exists. rewrite bind_unfold. simpl.
  by destruct (cwd w !! x).
Qed.

Lemma os_mkdir_top (x : string) (w : world) :
  os_mkdir [x] w =
  match cwd w !! x with
  | Some _ => (Raise FileExistsError, w)
  | None => (Return tt, World (<[x := Dir ∅]> (cwd w)) (spawned w))
  end.
Proof.
  unfold os_mkdir. rewrite bind_unfold. simpl.
  by destruct (cwd w !! x).
Qed.

Lemma shutil_rmtree_top (x : string) (w : world) :
  shutil_rmtree [x] w =
  match cwd w !! x with
  | None => (Raise FileNotFoundError, w)
  | Some (Dir _) => (Return tt, World (delete x (cwd w)) (spawned w))
  | Some _ => (Raise NotADirectoryError, w)
  end.
Proof.
  unfold shutil_rmtree. rewrite !bind_unfold. simpl.
  destruct (cwd w !! x) as [[]|]; reflexivity.
Qed.

Lemma shutil_copy_into (src : path) (t : string) (c : tree) (w : world) :
  cwd w !! t = Some (Dir c) →
  src ≠ [t; os_path_basename src] →
  shutil_copy src [t] w =
  match stat (cwd w) src with
  | Raise e => (Raise e, w)
  | Return (Dir _) => (Raise IsADirectoryError, w)
  | Return n =>
      match c !! os_path_basename src with
      | Some (Dir _) => (Raise IsADirectoryError, w)
      | _ => (Return tt,
              World (<[t := Dir (<[os_path_basename src := n]> c)]> (cwd w))
                    (spawned w))
      end
  end.
Proof.
  intros Ht Hsrc.
  unfold shutil_copy. rewrite bind_unfold. simpl. rewrite Ht.
  unfold shutil_copyfile. rewrite bind_unfold. simpl.
  rewrite bool_decide_eq_false_2 by done. simpl.
  rewrite bind_unfold. unfold lift at 1.
  destruct (stat (cwd w) src) as [n|e]; [|done].
  rewrite Ht.
  destruct n; try done;
    destruct (c !! os_path_basename src) as [[]|]; reflexivity.
Qed.

(** Run the computation at the head of the goal one bind further. *)
Ltac step :=
  rewrite bind_unfold; unfold setcwd, getcwd, lift, raise; simpl;
  rewrite ?world_eta.

Lemma shutil_copytree_into (x t y : string) (c : tree) (w : world) :
  cwd w !! t = Some (Dir c) →
  shutil_copytree [x] [t; y] w =
  match cwd w !! x with
  | None => (Raise FileNotFoundError, w)
  | Some (Dir library) =>
      match c !! y with
      | Some _ => (Raise FileExistsError, w)
      | None => (Return tt,
                 World (<[t := Dir (<[y := Dir library]> c)]> (cwd w))
                       (spawned w))
      end
  | Some _ => (Raise NotADirectoryError, w)
  end.
Proof.
  intros Ht.
  unfold shutil_copytree. do 2 step.
  destruct (cwd w !! x) as [[| |library]|]; try reflexivity.
  step. unfold os_makedirs. do 2 step. rewrite Ht.
  destruct (c !! y) as [n|]; simpl; [done|].
  do 2 step. rewrite lookup_insert_eq. simpl.
  by rewrite !insert_insert_eq.
Qed.

Lemma shutil_make_archive_into (pd stem t : string) (st : tree) (w : world) :
  cwd w !! t = Some (Dir st) →
  t ≠ pd →
  shutil_make_archive [pd; stem] zip [t] w =
  match cwd w !! pd with
  | None =>
      (Return [pd; stem +:+ ".zip"],
       World (<[pd := Dir {[stem +:+ ".zip" := Archive st]}]> (cwd w))
             (spawned w))
  | Some (Dir pub) =>
      match pub !! (stem +:+ ".zip") with
      | Some (Dir _) => (Raise IsADirectoryError, w)
      | _ =>
          (Return [pd; stem +:+ ".zip"],
           World (<[pd := Dir (<[stem +:+ ".zip" := Archive st]> pub)]> (cwd w))
                 (spawned w))
      end
  | Some _ => (Raise NotADirectoryError, w)
  end.
Proof.
  intros Ht Hne.
  unfold shutil_make_archive. do 2 step. rewrite Ht.
  unfold _make_zipfile. rewrite bind_unfold.
  change (os_path_dirname [pd; stem]) with [pd].
  rewrite os_path_exists_top.
  destruct (cwd w !! pd) as [[| |pub]|] eqn:Hpd; simpl.
  - repeat step. by rewrite Hpd.
  - repeat step. by rewrite Hpd.
  - repeat step. rewrite Hpd.
    destruct (pub !! (stem +:+ ".zip")) as [[]|]; repeat step;
      rewrite ?Ht; reflexivity.
  - unfold os_makedirs. repeat step. rewrite Hpd. repeat step.
    rewrite lookup_insert_eq, lookup_empty. repeat step.
    rewrite lookup_insert_ne, Ht by done.
    by rewrite insert_insert_eq.
Qed.

(** ** Worlds with a staging directory *)

Lemma stray_tmp (w : world) (c : tree) :
  cwd (stray w c) !! "tmp" = Some (Dir c).
Proof. apply lookup_insert_eq. Qed.

Lemma stray_other (w : world) (c : tree) (x : string) :
  x ≠ "tmp" → cwd (stray w c) !! x = cwd w !! x.
Proof. intros Hx. by apply lookup_insert_ne. Qed.

Lemma stray_stat (w : world) (c : tree) (x : string) (q : path) :
  x ≠ "tmp" → stat (cwd (stray w c)) (x :: q) = stat (cwd w) (x :: q).
Proof. intros Hx. by apply stat_insert_ne. Qed.

Lemma stray_stray (w : world) (c c' : tree) :
  World (<["tmp" := Dir c']> (cwd (stray w c))) (spawned (stray w c))
  = stray w c'.
Proof. unfold stray. simpl. by rewrite insert_insert_eq. Qed.

(** Removing the staging directory of a pass that found none gives the
    working directory back, but for what was published. *)
Lemma stray_published (w : world) (c pub : tree) :
  cwd w !! "tmp" = None →
  World (delete "tmp" (<["publish" := Dir pub]> (<["tmp" := Dir c]> (cwd w))))
        (spawned w)
  = published w pub.
Proof.
  intros Htmp. unfold published. f_equal.
  rewrite delete_insert_ne by done.
  rewrite delete_insert_eq.
  by rewrite delete_id.
Qed.

(** ** The script, evaluated *)

Lemma binary_name_cases (h : host) :
  binary_name h = "skye.exe" ∨ binary_name h = "skye".
Proof. unfold binary_name. destruct (PLATFORM h =? "Windows")%string; auto. Qed.

Lemma pack_staging (h : host) (cmd : string) :
  pack h cmd =
  (code ← os_system h cmd;
   (if negb (code =? 0)%Z then sys_exit 1 else mret tt);;
   staging h).
Proof. reflexivity. Qed.

(** The build check: a non-zero value ends the pass with [sys.exit(1)] in the
    world the command left; otherwise the staging steps run in that world. *)
Lemma pack_built (h : host) (cmd : string) (w : world) :
  pack h cmd w =
  if negb ((shell h cmd (cwd w)).1 =? 0)%Z
  then (Raise (SystemExit 1), built h cmd w)
  else staging h (built h cmd w).
Proof.
  rewrite pack_staging. rewrite bind_unfold. unfold os_system. simpl.
  fold (built h cmd w).
  destruct (shell h cmd (cwd w)).1; reflexivity.
Qed.

(** The reset of [publish]: a run gets to the build with [publish] empty and
    all else as it was, unless [publish] is there and is no directory. *)
Lemma run_reset (h : host) (fs : tree) :
  run h fs =
  match fs !! "publish" with
  | Some (File _) | Some (Archive _) => (Raise NotADirectoryError, World fs [])
  | _ => pack h "cargo build --release" (World (<["publish" := Dir ∅]> fs) [])
  end.
Proof.
  unfold run, main. rewrite bind_unfold, os_path_exists_top. simpl.
  destruct (fs !! "publish") as [[| |pub]|] eqn:Hpub.
  - rewrite bind_unfold, shutil_rmtree_top. simpl. by rewrite Hpub.
  - rewrite bind_unfold, shutil_rmtree_top. simpl. by rewrite Hpub.
  - rewrite bind_unfold, shutil_rmtree_top. simpl. rewrite Hpub.
    rewrite bind_unfold, os_mkdir_top. simpl.
    by rewrite lookup_delete_eq, insert_delete_eq.
  - step. rewrite bind_unfold, os_mkdir_top. simpl. by rewrite Hpub.
Qed.

(** The last two steps, with [c] staged: the archive is written into
    [publish], which is made if the build removed it, and the staging
    directory goes. *)
Lemma archive_steps (h : host) (w : world) (c : tree) :
  cwd w !! "tmp" = None →
  (shutil_make_archive ["publish"; archive_stem h] zip ["tmp"];;
   shutil_rmtree ["tmp"]) (stray w c) =
  match cwd w !! "publish" with
  | None => (Return tt, published w {[archive_name h := Archive c]})
  | Some (Dir pub) =>
      match pub !! archive_name h with
      | Some (Dir _) => (Raise IsADirectoryError, stray w c)
      | _ => (Return tt, published w (<[archive_name h := Archive c]> pub))
      end
  | Some _ => (Raise NotADirectoryError, stray w c)
  end.
Proof.
  intros Htmp.
  rewrite bind_unfold.
  rewrite (shutil_make_archive_into _ _ _ c) by (apply stray_tmp || done).
  rewrite stray_other by done. fold (archive_name h).
  destruct (cwd w !! "publish") as [[| |pub]|]; try done.
  - destruct (pub !! archive_name h) as [[]|]; try done;
      rewrite shutil_rmtree_top; simpl;
      rewrite lookup_insert_ne, lookup_insert_eq by done;
      by rewrite stray_published.
  - rewrite shutil_rmtree_top; simpl.
    rewrite lookup_insert_ne, lookup_insert_eq by done.
    by rewrite stray_published.
Qed.

(** The library step, with [c] staged. *)
Lemma library_steps (h : host) (w : world) (c : tree) :
  c !! "lib" = None →
  (shutil_copytree ["lib"] ["tmp"; "lib"];;
   shutil_make_archive ["publish"; archive_stem h] zip ["tmp"];;
   shutil_rmtree ["tmp"]) (stray w c) =
  match cwd w !! "lib" with
  | None => (Raise FileNotFoundError, stray w c)
  | Some (Dir library) =>
      (shutil_make_archive ["publish"; archive_stem h] zip ["tmp"];;
       shutil_rmtree ["tmp"]) (stray w (<["lib" := Dir library]> c))
  | Some _ => (Raise NotADirectoryError, stray w c)
  end.
Proof.
  intros Hlib.
  rewrite bind_unfold.
  rewrite (shutil_copytree_into _ _ _ c) by apply stray_tmp.
  rewrite stray_other by done. rewrite Hlib.
  destruct (cwd w !! "lib") as [[| |library]|]; try done.
  by rewrite stray_stray.
Qed.

(** The licence step, with [c] staged. *)
Lemma licence_steps (h : host) (w : world) (c : tree) :
  c !! "LICENSE" = None →
  (shutil_copy ["LICENSE"] ["tmp"];;
   shutil_copytree ["lib"] ["tmp"; "lib"];;
   shutil_make_archive ["publish"; archive_stem h] zip ["tmp"];;
   shutil_rmtree ["tmp"]) (stray w c) =
  match cwd w !! "LICENSE" with
  | None => (Raise FileNotFoundError, stray w c)
  | Some (Dir _) => (Raise IsADirectoryError, stray w c)
  | Some lic =>
      (shutil_copytree ["lib"] ["tmp"; "lib"];;
       shutil_make_archive ["publish"; archive_stem h] zip ["tmp"];;
       shutil_rmtree ["tmp"]) (stray w (<["LICENSE" := lic]> c))
  end.
Proof.
  intros Hlic.
  rewrite bind_unfold.
  rewrite (shutil_copy_into _ _ c) by (apply stray_tmp || done).
  rewrite stray_stat by done.
  change (os_path_basename ["LICENSE"]) with "LICENSE". rewrite Hlic.
  simpl stat.
  destruct (cwd w !! "LICENSE") as [[]|]; try done; by rewrite stray_stray.
Qed.

(** The binary step, in the empty staging directory. *)
Lemma binary_steps (h : host) (w : world) :
  (shutil_copy ["target"; "release"; binary_name h] ["tmp"];;
   shutil_copy ["LICENSE"] ["tmp"];;
   shutil_copytree ["lib"] ["tmp"; "lib"];;
   shutil_make_archive ["publish"; archive_stem h] zip ["tmp"];;
   shutil_rmtree ["tmp"]) (stray w ∅) =
  match stat (cwd w) ["target"; "release"; binary_name h] with
  | Raise e => (Raise e, stray w ∅)
  | Return (Dir _) => (Raise IsADirectoryError, stray w ∅)
  | Return bin =>
      (shutil_copy ["LICENSE"] ["tmp"];;
       shutil_copytree ["lib"] ["tmp"; "lib"];;
       shutil_make_archive ["publish"; archive_stem h] zip ["tmp"];;
       shutil_rmtree ["tmp"]) (stray w {[binary_name h := bin]})
  end.
Proof.
  rewrite bind_unfold.
  rewrite (shutil_copy_into _ _ ∅) by (apply stray_tmp || done).
  rewrite stray_stat by done.
  change (os_path_basename ["target"; "release"; binary_name h])
    with (binary_name h).
  rewrite lookup_empty.
  destruct (stat (cwd w) ["target"; "release"; binary_name h]) as [[]|];
    try done; by rewrite stray_stray.
Qed.

(** The staging steps, decided by what they find in the working directory:
    the first thing that is in the way or missing ends the pass with its
    error and leaves the staging directory as filled so far. *)
Lemma staging_eval (h : host) (w : world) :
  staging h w =
  match cwd w !! "tmp" with
  | Some _ => (Raise FileExistsError, w)
  | None =>
    match stat (cwd w) ["target"; "release"; binary_name h] with
    | Raise e => (Raise e, stray w ∅)
    | Return (Dir _) => (Raise IsADirectoryError, stray w ∅)
    | Return bin =>
      match cwd w !! "LICENSE" with
      | None => (Raise FileNotFoundError, stray w {[binary_name h := bin]})
      | Some (Dir _) =>
          (Raise IsADirectoryError, stray w {[binary_name h := bin]})
      | Some lic =>
        match cwd w !! "lib" with
        | None =>
            (Raise FileNotFoundError,
             stray w (<["LICENSE" := lic]> {[binary_name h := bin]}))
        | Some (Dir library) =>
          match cwd w !! "publish" with
          | None =>
              (Return tt,
               published w
                 {[archive_name h := Archive (staged h bin lic library)]})
          | Some (Dir pub) =>
              match pub !! archive_name h with
              | Some (Dir _) =>
                  (Raise IsADirectoryError,
                   stray w (staged h bin lic library))
              | _ =>
                  (Return tt,
                   published w
                     (<[archive_name h := Archive (staged h bin lic library)]>
                        pub))
              end
          | Some _ =>
              (Raise NotADirectoryError, stray w (staged h bin lic library))
          end
        | Some _ =>
            (Raise NotADirectoryError,
             stray w (<["LICENSE" := lic]> {[binary_name h := bin]}))
        end
      end
    end
  end.
Proof.
  assert (binary_name h ≠ "LICENSE" ∧ binary_name h ≠ "lib") as [HbL Hbl]
    by (destruct (binary_name_cases h) as [-> | ->]; done).
  unfold staging, os_path_join.
  rewrite bind_unfold, os_mkdir_top.
  destruct (cwd w !! "tmp") as [n|] eqn:Htmp; [done|].
  fold (stray w ∅). rewrite binary_steps.
  destruct (stat (cwd w) ["target"; "release"; binary_name h])
    as [bin|e]; [|done].
  assert (Hrest :
    (shutil_copy ["LICENSE"] ["tmp"];;
     shutil_copytree ["lib"] ["tmp"; "lib"];;
     shutil_make_archive ["publish"; archive_stem h] zip ["tmp"];;
     shutil_rmtree ["tmp"]) (stray w {[binary_name h := bin]}) =
    match cwd w !! "LICENSE" with
    | None => (Raise FileNotFoundError, stray w {[binary_name h := bin]})
    | Some (Dir _) =>
        (Raise IsADirectoryError, stray w {[binary_name h := bin]})
    | Some lic =>
        (shutil_copytree ["lib"] ["tmp"; "lib"];;
         shutil_make_archive ["publish"; archive_stem h] zip ["tmp"];;
         shutil_rmtree ["tmp"])
          (stray w (<["LICENSE" := lic]> {[binary_name h := bin]}))
    end).
  { apply licence_steps. by rewrite lookup_singleton_ne. }
  assert (Hlib : ∀ lic,
    (shutil_copytree ["lib"] ["tmp"; "lib"];;
     shutil_make_archive ["publish"; archive_stem h] zip ["tmp"];;
     shutil_rmtree ["tmp"])
      (stray w (<["LICENSE" := lic]> {[binary_name h := bin]})) =
    match cwd w !! "lib" with
    | None =>
        (Raise FileNotFoundError,
         stray w (<["LICENSE" := lic]> {[binary_name h := bin]}))
    | Some (Dir library) =>
        (shutil_make_archive ["publish"; archive_stem h] zip ["tmp"];;
         shutil_rmtree ["tmp"]) (stray w (staged h bin lic library))
    | Some _ =>
        (Raise NotADirectoryError,
         stray w (<["LICENSE" := lic]> {[binary_name h := bin]}))
    end).
  { intros lic. apply library_steps.
    by rewrite lookup_insert_ne, lookup_singleton_ne. }
  destruct bin as [data|members|entries]; [| |done];
    rewrite Hrest;
    (destruct (cwd w !! "LICENSE") as [[]|]; [| |done|done]);
    rewrite Hlib;
    (destruct (cwd w !! "lib") as [[]|]; [done|done| |done]);
    by rewrite archive_steps.
Qed.

(** A whole run: the reset, the build, the build check, the staging steps. *)
Lemma run_eval (h : host) (fs : tree) :
  run h fs =
  match fs !! "publish" with
  | Some (File _) | Some (Archive _) => (Raise NotADirectoryError, World fs [])
  | _ =>
      if negb (status (build_call h fs) =? 0)%Z
      then (Raise (SystemExit 1),
            World (after (build_call h fs)) [build_call h fs])
      else staging h (World (after (build_call h fs)) [build_call h fs])
  end.
Proof.
  rewrite run_reset.
  destruct (fs !! "publish") as [[]|]; try done; by rewrite pack_built.
Qed.

(** Case analysis on the run in [H]: one goal for each way it can go. *)
Ltac run_cases H :=
  rewrite run_eval in H;
  repeat match type of H with
         | context [staging _ _] => rewrite staging_eval in H; simpl in H
         | context [match ?x with _ => _ end] => destruct x eqn:?
         end;
  simplify_eq.

(** What the log of a run holds: nothing, or the one build call. *)
Lemma run_spawned (h : host) (fs : tree) (r : result unit) (w : world) :
  run h fs = (r, w) →
  spawned w = [] ∧ r = Raise NotADirectoryError ∧ w = World fs []
  ∨ spawned w = [build_call h fs].
Proof. intros Hrun. run_cases Hrun; auto. Qed.

(** A run that ends normally: the build succeeded, found no [tmp], and left
    a binary, a licence and a library to stage; the run leaves what the build
    left, plus the archive of the three in [publish]. *)
Lemma run_success (h : host) (fs : tree) (w : world) :
  run h fs = (Return tt, w) →
  ∃ bin lic library pub,
    status (build_call h fs) = 0
    ∧ after (build_call h fs) !! "tmp" = None
    ∧ stat (after (build_call h fs)) ["target"; "release"; binary_name h]
      = Return bin
    ∧ is_dir bin = false
    ∧ after (build_call h fs) !! "LICENSE" = Some lic
    ∧ is_dir lic = false
    ∧ after (build_call h fs) !! "lib" = Some (Dir library)
    ∧ (after (build_call h fs) !! "publish" = Some (Dir pub)
       ∨ after (build_call h fs) !! "publish" = None ∧ pub = ∅)
    ∧ w = World
            (<["publish" :=
                 Dir (<[archive_name h := Archive (staged h bin lic library)]>
                        pub)]>
               (after (build_call h fs)))
            [build_call h fs].
Proof.
  intros Hrun.
  assert (∀ b, negb (b =? 0)%Z = false → b = 0) as Hzero
    by (intros b Hb; apply negb_false_iff, Z.eqb_eq in Hb; done).
  run_cases Hrun;
    match goal with Hb : negb _ = false |- _ => apply Hzero in Hb end;
    eexists _, _, _, _; repeat split; eauto.
Qed.

(** What a confined build leaves outside [target]. *)
Lemma cargo_like_publish (h : host) (fs : tree) :
  cargo_like h → after (build_call h fs) !! "publish" = Some (Dir ∅).
Proof.
  intros Hcargo. unfold build_call. simpl.
  rewrite Hcargo by done. apply lookup_insert_eq.
Qed.

Lemma cargo_like_keeps (h : host) (fs : tree) (x : string) :
  cargo_like h → x ≠ "target" → x ≠ "publish" →
  after (build_call h fs) !! x = fs !! x.
Proof.
  intros Hcargo Hx Hx'. unfold build_call. simpl.
  rewrite Hcargo by done. by apply lookup_insert_ne.
Qed.

(** ** Staging cleanup *)

(** C6. After a run that ended normally no [tmp] entry is left in the
    working directory. *)
Theorem staging_removed (h : host) (fs : tree) (w : world) :
  run h fs = (Return tt, w) → cwd w !! "tmp" = None.
Proof.
  intros Hrun. run_cases Hrun; simpl; by rewrite lookup_insert_ne.
Qed.

(** ** Build failure *)

Lemma cargo_like_cargo (os_name machine name : string) :
  cargo_like (Host os_name machine (cargo name)).
Proof. intros cmd d x Hx. simpl. by apply lookup_insert_ne. Qed.

Lemma cargo_like_broken (os_name machine : string) :
  cargo_like (Host os_name machine cargo_broken).
Proof. by intros cmd d x Hx. Qed.

(** C1. When the build command returns a non-zero value the process ends
    with exit status 1; [publish] is there and empty, [tmp] is as it was
    before the run (none was made), and the working directory is just as the
    build left it: no later step has run. The build is taken to keep to
    [target]. *)
Theorem build_failure_short_circuit (h : host) (fs : tree)
    (r : result unit) (w : world) (s : spawn) :
  cargo_like h →
  run h fs = (r, w) →
  s ∈ spawned w →
  status s ≠ 0 →
  outcome r = Exit 1
  ∧ cwd w !! "publish" = Some (Dir ∅)
  ∧ cwd w !! "tmp" = fs !! "tmp"
  ∧ cwd w = after s.
Proof.
  intros Hcargo Hrun Hs Hfail.
  destruct (run_spawned _ _ _ _ Hrun) as [(Hnil & _) | Hlog].
  { rewrite Hnil in Hs. by apply elem_of_nil in Hs. }
  rewrite Hlog in Hs. apply list_elem_of_singleton in Hs. subst s.
  rewrite run_eval in Hrun.
  apply Z.eqb_neq in Hfail.
  destruct (fs !! "publish") as [[]|]; rewrite ?Hfail in Hrun;
    cbn [negb] in Hrun; simplify_eq; try discriminate; cbn [cwd];
    by rewrite cargo_like_publish, cargo_like_keeps.
Qed.

Lemma build_failure_short_circuit_witness :
  outcome (run linux_broken checkout).1 = Exit 1
  ∧ cwd (run linux_broken checkout).2 !! "publish" = Some (Dir ∅)
  ∧ cwd (run linux_broken checkout).2 !! "tmp" = checkout !! "tmp"
  ∧ cwd (run linux_broken checkout).2 = after (build_call linux_broken checkout).
Proof.
  apply (build_failure_short_circuit linux_broken checkout _ _
           (build_call linux_broken checkout)).
  - apply cargo_like_broken.
  - apply surjective_pairing.
  - vm_compute. apply list_elem_of_here.
  - vm_compute. discriminate.
Defined.

Lemma staging_removed_witness : cwd (run linux checkout).2 !! "tmp" = None.
Proof.
  apply (staging_removed linux checkout).
  vm_compute. reflexivity.
Defined.

(** ** A staging directory that is already there *)

(** The one build call of a run, read off its log. *)
Lemma spawned_build_call (h : host) (fs : tree) (r : result unit)
    (w : world) (s : spawn) :
  run h fs = (r, w) → s ∈ spawned w → s = build_call h fs.
Proof.
  intros Hrun Hs.
  destruct (run_spawned _ _ _ _ Hrun) as [(Hnil & _) | Hlog].
  - rewrite Hnil in Hs. by apply elem_of_nil in Hs.
  - rewrite Hlog in Hs. by apply list_elem_of_singleton in Hs.
Qed.

(** A run whose build succeeded goes on to the staging steps. *)
Lemma run_built (h : host) (fs : tree) (r : result unit) (w : world)
    (s : spawn) :
  run h fs = (r, w) → s ∈ spawned w → status s = 0 →
  s = build_call h fs ∧ staging h (World (after s) [s]) = (r, w).
Proof.
  intros Hrun Hs Hok.
  pose proof (spawned_build_call _ _ _ _ _ Hrun Hs) as ->.
  split; [done|].
  rewrite run_eval, Hok in Hrun. cbn [Z.eqb negb] in Hrun.
  destruct (fs !! "publish") as [[]|]; try done;
    simplify_eq; by apply elem_of_nil in Hs.
Qed.

(** C4. When a [tmp] entry is in the working directory before the run and
    the build succeeds, [os.mkdir] raises [FileExistsError], which ends the
    process with a traceback; the entry is what it was, and nothing has been
    written since the build. The build is taken to keep to [target]. *)
Theorem staging_collision (h : host) (fs : tree) (n : node)
    (r : result unit) (w : world) (s : spawn) :
  cargo_like h →
  fs !! "tmp" = Some n →
  run h fs = (r, w) →
  s ∈ spawned w →
  status s = 0 →
  r = Raise FileExistsError
  ∧ outcome r = Traceback FileExistsError
  ∧ cwd w !! "tmp" = Some n
  ∧ cwd w = after s.
Proof.
  intros Hcargo Htmp Hrun Hs Hok.
  destruct (run_built _ _ _ _ _ Hrun Hs Hok) as [-> Hstage].
  rewrite staging_eval in Hstage. cbn [cwd] in Hstage.
  rewrite cargo_like_keeps, Htmp in Hstage by done.
  simplify_eq. cbn [cwd outcome].
  by rewrite cargo_like_keeps.
Qed.

Lemma staging_collision_witness :
  (run linux (<["tmp" := File "stale"]> checkout)).1 = Raise FileExistsError
  ∧ outcome (run linux (<["tmp" := File "stale"]> checkout)).1
    = Traceback FileExistsError
  ∧ cwd (run linux (<["tmp" := File "stale"]> checkout)).2 !! "tmp"
    = Some (File "stale")
  ∧ cwd (run linux (<["tmp" := File "stale"]> checkout)).2
    = after (build_call linux (<["tmp" := File "stale"]> checkout)).
Proof.
  apply (staging_collision linux (<["tmp" := File "stale"]> checkout)
           (File "stale") _ _
           (build_call linux (<["tmp" := File "stale"]> checkout))).
  - apply cargo_like_cargo.
  - vm_compute. reflexivity.
  - apply surjective_pairing.
  - vm_compute. apply list_elem_of_here.
  - vm_compute. reflexivity.
Defined.

(** ** Errors nobody handles *)

(** C8. Once the build has succeeded nothing leads to [sys.exit]; and when
    the built binary, the licence or the library is missing in what the
    build left, the run ends with an exception that reaches the top: the
    process aborts with its traceback. *)
Theorem filesystem_errors_unhandled (h : host) (fs : tree)
    (r : result unit) (w : world) (s : spawn) :
  run h fs = (r, w) →
  s ∈ spawned w →
  status s = 0 →
  (∀ c, r ≠ Raise (SystemExit c))
  ∧ (resolve (after s) ["target"; "release"; binary_name h] = None
     ∨ after s !! "LICENSE" = None
     ∨ after s !! "lib" = None →
     ∃ e, r = Raise e ∧ outcome r = Traceback e).
Proof.
  intros Hrun Hs Hok.
  destruct (run_built _ _ _ _ _ Hrun Hs Hok) as [-> Hstage].
  rewrite staging_eval in Hstage. cbn [cwd] in Hstage.
  unfold resolve.
  repeat match type of Hstage with
         | context [match ?x with _ => _ end] => destruct x eqn:?
         end;
    simplify_eq;
    try match goal with
        | Hstat : stat _ _ = Raise _ |- _ =>
            apply stat_raises in Hstat as [-> | ->]
        end;
    (split; [done|]);
    try (by intros _; eexists);
    by intros [|[|]].
Qed.

Lemma filesystem_errors_unhandled_witness :
  (∀ c, (run linux (delete "LICENSE" checkout)).1 ≠ Raise (SystemExit c))
  ∧ (resolve (after (build_call linux (delete "LICENSE" checkout)))
       ["target"; "release"; binary_name linux] = None
     ∨ after (build_call linux (delete "LICENSE" checkout)) !! "LICENSE" = None
     ∨ after (build_call linux (delete "LICENSE" checkout)) !! "lib" = None →
     ∃ e, (run linux (delete "LICENSE" checkout)).1 = Raise e
          ∧ outcome (run linux (delete "LICENSE" checkout)).1 = Traceback e).
Proof.
  apply (filesystem_errors_unhandled linux (delete "LICENSE" checkout) _
           (run linux (delete "LICENSE" checkout)).2
           (build_call linux (delete "LICENSE" checkout))).
  - apply surjective_pairing.
  - vm_compute. apply list_elem_of_here.
  - vm_compute. reflexivity.
Defined.

(** ** The reset comes first *)



(** ** The archive *)

Lemma PLATFORM_spec (h : host) : PLATFORM h = spec_platform (platform_system h).
Proof.
  unfold PLATFORM, spec_platform.
  destruct (String.eqb_spec (platform_system h) "Darwin") as [Heq|Hne].
  - by rewrite bool_decide_eq_true_2.
  - by rewrite bool_decide_eq_false_2.
Qed.







Lemma binary_name_spec (h : host) :
  binary_name h = spec_binary_name (PLATFORM h).
Proof.
  unfold binary_name, spec_binary_name.
  destruct (String.eqb_spec (PLATFORM h) "Windows") as [Heq|Hne].
  - by rewrite bool_decide_eq_true_2.
  - by rewrite bool_decide_eq_false_2.
Qed.

Lemma PLATFORM_Windows (h : host) :
  PLATFORM h = "Windows" ↔ platform_system h = "Windows".
Proof.
  rewrite PLATFORM_spec. unfold spec_platform.
  case_bool_decide as Hos; [|done].
  rewrite Hos. split; discriminate.
Qed.



(** ** The binary *)

Lemma staged_dom (h : host) (bin lic : node) (lib_tree : tree) :
  dom (staged h bin lic lib_tree) = {[ binary_name h; "LICENSE"; "lib" ]}.
Proof.
  unfold staged. rewrite !dom_insert_L, dom_singleton_L.
  apply set_eq. intros x. rewrite !elem_of_union, !elem_of_singleton. tauto.
Qed.

Lemma staged_binary (h : host) (bin lic : node) (lib_tree : tree) :
  staged h bin lic lib_tree !! binary_name h = Some bin.
Proof.
  unfold staged.
  destruct (binary_name_cases h) as [-> | ->]; by simplify_map_eq.
Qed.



(** The three stages of filling the staging directory all hold the binary
    under its name, and nothing but the binary, the licence and the
    library. *)
Lemma staging_holds_binary (h : host) (bin : node) (c : tree) :
  c = {[binary_name h := bin]}
  ∨ (∃ lic, c = <["LICENSE" := lic]> {[binary_name h := bin]})
  ∨ (∃ lic lib_tree, c = staged h bin lic lib_tree) →
  c !! binary_name h = Some bin
  ∧ dom c ⊆ {[ binary_name h; "LICENSE"; "lib" ]}.
Proof.
  assert (binary_name h ≠ "LICENSE") as HbL
    by (destruct (binary_name_cases h) as [-> | ->]; done).
  intros [-> | [(lic & ->) | (lic & lib_tree & ->)]].
  - rewrite lookup_singleton_eq, dom_singleton_L. split; [done|].
    intros x. rewrite !elem_of_union, !elem_of_singleton. tauto.
  - rewrite lookup_insert_ne, lookup_singleton_eq by done.
    rewrite dom_insert_L, dom_singleton_L. split; [done|].
    intros x. rewrite !elem_of_union, !elem_of_singleton. tauto.
  - rewrite staged_binary, staged_dom. done.
Qed.



(** C10. The script picks the binary name by testing [PLATFORM], the OS name
    after the rewrite of ["Darwin"]; for every OS name a host can report this
    is the name a test of the raw OS name picks. *)
Theorem binary_selection_raw (h : host) :
  binary_name h = spec_binary_name (PLATFORM h)
  ∧ binary_name h = raw_binary_name (platform_system h).
Proof.
  split; [apply binary_name_spec|].
  rewrite binary_name_spec. unfold spec_binary_name, raw_binary_name.
  destruct (decide (platform_system h = "Windows")) as [Hw|Hw].
  - rewrite !bool_decide_eq_true_2; [done..|]. by apply PLATFORM_Windows.
  - rewrite !bool_decide_eq_false_2; [done..|]. by rewrite PLATFORM_Windows.
Qed.

(** ** Running twice *)

(** A second run has what it needs once a first run has ended normally, as
    long as the build succeeds again and leaves a binary: the staging
    directory of the first run is gone, and a build that keeps to [target]
    leaves the licence and the library where they were. *)
Lemma rerun_succeeds (h : host) (fs : tree) (w1 : world) (bin : node) :
  cargo_like h →
  run h fs = (Return tt, w1) →
  status (build_call h (cwd w1)) = 0 →
  stat (after (build_call h (cwd w1))) ["target"; "release"; binary_name h]
  = Return bin →
  is_dir bin = false →
  ∃ w2, run h (cwd w1) = (Return tt, w2).
Proof.
  intros Hcargo Hfirst Hok Hbin Hfile.
  destruct (run_success _ _ _ Hfirst)
    as (bin1 & lic & lib_tree & pub & _ & Htmp & _ & _ & Hlic & Hlicfile
        & Hlib & _ & Hw1).
  assert (cwd w1 !! "publish" = Some
            (Dir (<[archive_name h := Archive (staged h bin1 lic lib_tree)]>
                    pub))) as Hpub1
    by (rewrite Hw1; apply lookup_insert_eq).
  assert (∀ x, x ≠ "target" → x ≠ "publish" →
               after (build_call h (cwd w1)) !! x
               = after (build_call h fs) !! x) as Hkeep.
  { intros x Hx Hx'. rewrite cargo_like_keeps by done.
    rewrite Hw1. cbn [cwd]. by apply lookup_insert_ne. }
  rewrite run_eval, Hpub1, Hok. cbn [Z.eqb negb].
  rewrite staging_eval. cbn [cwd].
  rewrite !Hkeep by done.
  rewrite Htmp, Hbin, Hlic, Hlib, cargo_like_publish, lookup_empty by done.
  destruct bin; [| |done]; destruct lic; try done; by eexists.
Qed.



(** * Further properties of a run *)

(** ** Before the build *)

(** X1. When [publish] is there and is no directory, [shutil.rmtree] raises
    [NotADirectoryError] at once: the run ends there, has called no command
    and has changed nothing. *)
Theorem publish_not_a_directory (h : host) (fs : tree) (n : node) :
  fs !! "publish" = Some n →
  is_dir n = false →
  run h fs = (Raise NotADirectoryError, World fs []).
Proof.
  intros Hpub Hfile. rewrite run_eval, Hpub. by destruct n.
Qed.

Lemma publish_not_a_directory_witness :
  run linux (<["publish" := File "notes"]> checkout)
  = (Raise NotADirectoryError,
     World (<["publish" := File "notes"]> checkout) []).
Proof.
  apply (publish_not_a_directory linux _ (File "notes")).
  - vm_compute. reflexivity.
  - reflexivity.
Defined.

(** X2. A run calls at most one command, and the command it calls is
    [cargo build --release]. *)
Theorem one_build_command (h : host) (fs : tree) (r : result unit)
    (w : world) :
  run h fs = (r, w) →
  (length (spawned w) ≤ 1)%nat
  ∧ ∀ s, s ∈ spawned w → command s = "cargo build --release".
Proof.
  intros Hrun.
  destruct (run_spawned _ _ _ _ Hrun) as [(-> & _) | ->].
  - split; [simpl; lia|]. intros s Hs. by apply elem_of_nil in Hs.
  - split; [simpl; lia|]. intros s Hs.
    by apply list_elem_of_singleton in Hs as ->.
Qed.

Lemma one_build_command_witness :
  (length (spawned (run linux checkout).2) ≤ 1)%nat
  ∧ ∀ s, s ∈ spawned (run linux checkout).2 →
         command s = "cargo build --release".
Proof.
  apply (one_build_command linux checkout (run linux checkout).1).
  apply surjective_pairing.
Defined.

(** ** What a run leaves alone *)

(** X3. Whatever way a run goes after the build, it writes nowhere but in
    [publish] and [tmp]: every other entry of the working directory is as the
    build left it. The licence, the library and the build output are copied,
    never moved or changed. *)
Theorem inputs_untouched (h : host) (fs : tree) (r : result unit)
    (w : world) (s : spawn) (x : string) :
  run h fs = (r, w) →
  s ∈ spawned w →
  x ≠ "publish" →
  x ≠ "tmp" →
  cwd w !! x = after s !! x.
Proof.
  intros Hrun Hs Hpub Htmp.
  pose proof (spawned_build_call _ _ _ _ _ Hrun Hs) as ->.
  run_cases Hrun; try (by apply elem_of_nil in Hs);
    cbn [cwd stray published]; by rewrite ?lookup_insert_ne by done.
Qed.

Lemma inputs_untouched_witness :
  cwd (run linux checkout).2 !! "lib"
  = after (build_call linux checkout) !! "lib".
Proof.
  apply (inputs_untouched linux checkout (run linux checkout).1).
  - apply surjective_pairing.
  - vm_compute. apply list_elem_of_here.
  - discriminate.
  - discriminate.
Defined.

(** ** Runs that fail while staging *)

(** What the staging steps leave when they fail: the staging directory, with
    what had been staged so far. *)
Lemma staging_fails_stray (h : host) (w w' : world) (e : exn) :
  cwd w !! "tmp" = None →
  staging h w = (Raise e, w') →
  ∃ c, w' = stray w c ∧ dom c ⊆ {[ binary_name h; "LICENSE"; "lib" ]}.
Proof.
  intros Htmp Hstage.
  rewrite staging_eval, Htmp in Hstage.
  repeat match type of Hstage with
         | context [match ?x with _ => _ end] => destruct x eqn:?
         end;
    simplify_eq; eexists; (split; [reflexivity|]);
    first [ by rewrite dom_empty_L; apply empty_subseteq
          | eapply staging_holds_binary; eauto 6 ].
Qed.

(** X4. The script has no clean-up on failure: when the build has succeeded
    and left no [tmp], and a later step fails, the run ends with a [tmp]
    directory in the working directory, holding nothing but what had been
    staged. *)
Theorem failed_staging_left_behind (h : host) (fs : tree) (e : exn)
    (w : world) (s : spawn) :
  run h fs = (Raise e, w) →
  s ∈ spawned w →
  status s = 0 →
  after s !! "tmp" = None →
  ∃ c, cwd w !! "tmp" = Some (Dir c)
       ∧ dom c ⊆ {[ binary_name h; "LICENSE"; "lib" ]}.
Proof.
  intros Hrun Hs Hok Htmp.
  destruct (run_built _ _ _ _ _ Hrun Hs Hok) as [-> Hstage].
  apply staging_fails_stray in Hstage as (c & -> & Hdom); [|done].
  exists c. split; [apply stray_tmp|done].
Qed.

Lemma failed_staging_left_behind_witness :
  ∃ c, cwd (run linux (delete "LICENSE" checkout)).2 !! "tmp" = Some (Dir c)
       ∧ dom c ⊆ {[ binary_name linux; "LICENSE"; "lib" ]}.
Proof.
  apply (failed_staging_left_behind linux (delete "LICENSE" checkout)
           FileNotFoundError _
           (build_call linux (delete "LICENSE" checkout))).
  - vm_compute. reflexivity.
  - vm_compute. apply list_elem_of_here.
  - vm_compute. reflexivity.
  - vm_compute. reflexivity.
Defined.

(** X5. A run that has failed while staging stands in the way of the next
    one: run again in what it left, with a build that succeeds and keeps to
    [target], the script stops at [os.mkdir] with [FileExistsError]. *)
Theorem stale_staging_blocks_next_run (h : host) (fs : tree) (e : exn)
    (w1 : world) (s1 : spawn) (r2 : result unit) (w2 : world) (s2 : spawn) :
  cargo_like h →
  run h fs = (Raise e, w1) →
  s1 ∈ spawned w1 →
  status s1 = 0 →
  after s1 !! "tmp" = None →
  run h (cwd w1) = (r2, w2) →
  s2 ∈ spawned w2 →
  status s2 = 0 →
  r2 = Raise FileExistsError.
Proof.
  intros Hcargo Hfirst Hs1 Hok1 Htmp Hsecond Hs2 Hok2.
  destruct (run_built _ _ _ _ _ Hfirst Hs1 Hok1) as [-> Hstage1].
  apply staging_fails_stray in Hstage1 as (c & -> & _); [|done].
  destruct (run_built _ _ _ _ _ Hsecond Hs2 Hok2) as [-> Hstage2].
  rewrite staging_eval in Hstage2. cbn [cwd] in Hstage2.
  rewrite cargo_like_keeps in Hstage2 by done.
  rewrite stray_tmp in Hstage2. by simplify_eq.
Qed.

Lemma stale_staging_blocks_next_run_witness :
  (run linux (cwd (run linux (delete "LICENSE" checkout)).2)).1
  = Raise FileExistsError.
Proof.
  apply (stale_staging_blocks_next_run linux (delete "LICENSE" checkout)
           FileNotFoundError
           (run linux (delete "LICENSE" checkout)).2
           (build_call linux (delete "LICENSE" checkout))
           _
           (run linux (cwd (run linux (delete "LICENSE" checkout)).2)).2
           (build_call linux
              (cwd (run linux (delete "LICENSE" checkout)).2))).
  - apply cargo_like_cargo.
  - vm_compute. reflexivity.
  - vm_compute. apply list_elem_of_here.
  - vm_compute. reflexivity.
  - vm_compute. reflexivity.
  - apply surjective_pairing.
  - vm_compute. apply list_elem_of_here.
  - vm_compute. reflexivity.
Defined.

(** ** How a run ends *)

(** X6. [sys.exit] is reached exactly when the build command was called and
    returned a non-zero value, and then with the argument 1: no other failure
    of a run ends it through [SystemExit]. *)
Theorem sys_exit_iff_build_failed (h : host) (fs : tree) (r : result unit)
    (w : world) :
  run h fs = (r, w) →
  ((∃ c, r = Raise (SystemExit c)) ↔ ∃ s, s ∈ spawned w ∧ status s ≠ 0)
  ∧ (∀ c, r = Raise (SystemExit c) → c = 1).
Proof.
  intros Hrun.
  assert (∀ c, r = Raise (SystemExit c) →
               c = 1 ∧ ∃ s, s ∈ spawned w ∧ status s ≠ 0) as Hexit.
  { intros c ->. rewrite run_eval in Hrun.
    destruct (fs !! "publish") as [[]|]; try done;
      (destruct (negb _) eqn:Hcode;
       [ apply negb_true_iff, Z.eqb_neq in Hcode; simplify_eq;
         split; [done|];
         exists (build_call h fs); split; [apply list_elem_of_here|done]
       | rewrite staging_eval in Hrun;
         repeat match type of Hrun with
                | context [match ?x with _ => _ end] => destruct x eqn:?
                end;
         simplify_eq;
         match goal with
         | Hstat : stat _ _ = Raise _ |- _ =>
             by apply stat_raises in Hstat as [|]
         end ]). }
  split; [split|].
  - intros [c Hc]. by apply (Hexit c).
  - intros (s & Hs & Hfail).
    pose proof (spawned_build_call _ _ _ _ _ Hrun Hs) as ->.
    rewrite run_eval in Hrun. apply Z.eqb_neq in Hfail.
    destruct (fs !! "publish") as [[]|]; rewrite ?Hfail in Hrun;
      cbn [negb] in Hrun; simplify_eq; try (by eexists);
      by apply elem_of_nil in Hs.
  - intros c Hc. by apply (Hexit c).
Qed.

Lemma sys_exit_iff_build_failed_witness :
  ((∃ c, (run linux_broken checkout).1 = Raise (SystemExit c))
   ↔ ∃ s, s ∈ spawned (run linux_broken checkout).2 ∧ status s ≠ 0)
  ∧ (∀ c, (run linux_broken checkout).1 = Raise (SystemExit c) → c = 1).
Proof.
  apply (sys_exit_iff_build_failed linux_broken checkout).
  apply surjective_pairing.
Defined.

(** X7. With a build that keeps to [target], a run ends normally only when:
    [publish] is not there or is a directory; the build returns zero; there
    is no [tmp]; the build leaves a regular file at
    [target/release/<binary name>]; [LICENSE] is a regular file; and [lib] is
    a directory. *)
Theorem run_succeeds_only_if (h : host) (fs : tree) (w : world) :
  cargo_like h →
  run h fs = (Return tt, w) →
  (∀ n, fs !! "publish" = Some n → is_dir n = true)
  ∧ status (build_call h fs) = 0
  ∧ fs !! "tmp" = None
  ∧ (∃ bin, stat (after (build_call h fs))
              ["target"; "release"; binary_name h] = Return bin
            ∧ is_dir bin = false)
  ∧ (∃ lic, fs !! "LICENSE" = Some lic ∧ is_dir lic = false)
  ∧ (∃ lib_tree, fs !! "lib" = Some (Dir lib_tree)).
Proof.
  intros Hcargo Hrun.
  destruct (run_success _ _ _ Hrun)
    as (bin & lic & lib_tree & pub & Hok & Htmp & Hbin & Hfile & Hlic
        & Hlicfile & Hlib & _ & _).
  rewrite cargo_like_keeps in Htmp, Hlic, Hlib by done.
  split; [|by eauto 10].
  intros n Hn. rewrite run_eval, Hn in Hrun. by destruct n.
Qed.

Lemma run_succeeds_only_if_witness :
  (∀ n, checkout !! "publish" = Some n → is_dir n = true)
  ∧ status (build_call linux checkout) = 0
  ∧ checkout !! "tmp" = None
  ∧ (∃ bin, stat (after (build_call linux checkout))
              ["target"; "release"; binary_name linux] = Return bin
            ∧ is_dir bin = false)
  ∧ (∃ lic, checkout !! "LICENSE" = Some lic ∧ is_dir lic = false)
  ∧ (∃ lib_tree, checkout !! "lib" = Some (Dir lib_tree)).
Proof.
  apply (run_succeeds_only_if linux checkout (run linux checkout).2).
  - apply cargo_like_cargo.
  - vm_compute. reflexivity.
Defined.

(** ** What is published *)






(** ** Which input is missing *)

(** X10. When the build has succeeded, has left no [tmp] and a regular file
    for the binary, but no [LICENSE], the run ends with [FileNotFoundError]
    and leaves a staging directory that holds the binary alone. *)
Theorem missing_licence (h : host) (fs : tree) (r : result unit) (w : world)
    (s : spawn) (bin : node) :
  run h fs = (r, w) →
  s ∈ spawned w →
  status s = 0 →
  after s !! "tmp" = None →
  stat (after s) ["target"; "release"; binary_name h] = Return bin →
  is_dir bin = false →
  after s !! "LICENSE" = None →
  r = Raise FileNotFoundError
  ∧ cwd w !! "tmp" = Some (Dir {[ binary_name h := bin ]}).
Proof.
  intros Hrun Hs Hok Htmp Hbin Hfile Hlic.
  destruct (run_built _ _ _ _ _ Hrun Hs Hok) as [-> Hstage].
  rewrite staging_eval in Hstage. cbn [cwd] in Hstage.
  rewrite Htmp, Hbin, Hlic in Hstage.
  destruct bin; [| |done]; simplify_eq; by rewrite stray_tmp.
Qed.

Lemma missing_licence_witness :
  (run linux (delete "LICENSE" checkout)).1 = Raise FileNotFoundError
  ∧ cwd (run linux (delete "LICENSE" checkout)).2 !! "tmp"
    = Some (Dir {[ binary_name linux := File "ELF" ]}).
Proof.
  apply (missing_licence linux (delete "LICENSE" checkout) _ _
           (build_call linux (delete "LICENSE" checkout))).
  - apply surjective_pairing.
  - vm_compute. apply list_elem_of_here.
  - vm_compute. reflexivity.
  - vm_compute. reflexivity.
  - vm_compute. reflexivity.
  - reflexivity.
  - vm_compute. reflexivity.
Defined.

(** X11. When only the library is missing (the build has succeeded and left
    no [tmp], the binary and the licence are regular files), the run ends
    with [FileNotFoundError] and leaves a staging directory that holds the
    binary and the licence. *)
Theorem missing_library (h : host) (fs : tree) (r : result unit) (w : world)
    (s : spawn) (bin lic : node) :
  run h fs = (r, w) →
  s ∈ spawned w →
  status s = 0 →
  after s !! "tmp" = None →
  stat (after s) ["target"; "release"; binary_name h] = Return bin →
  is_dir bin = false →
  after s !! "LICENSE" = Some lic →
  is_dir lic = false →
  after s !! "lib" = None →
  r = Raise FileNotFoundError
  ∧ cwd w !! "tmp"
    = Some (Dir (<["LICENSE" := lic]> {[ binary_name h := bin ]})).
Proof.
  intros Hrun Hs Hok Htmp Hbin Hfile Hlic Hlicfile Hlib.
  destruct (run_built _ _ _ _ _ Hrun Hs Hok) as [-> Hstage].
  rewrite staging_eval in Hstage. cbn [cwd] in Hstage.
  rewrite Htmp, Hbin, Hlic, Hlib in Hstage.
  destruct bin; [| |done]; destruct lic; try done; simplify_eq;
    by rewrite stray_tmp.
Qed.

Lemma missing_library_witness :
  (run linux (delete "lib" checkout)).1 = Raise FileNotFoundError
  ∧ cwd (run linux (delete "lib" checkout)).2 !! "tmp"
    = Some (Dir (<["LICENSE" := File "MIT"]>
                   {[ binary_name linux := File "ELF" ]})).
Proof.
  apply (missing_library linux (delete "lib" checkout) _ _
           (build_call linux (delete "lib" checkout))).
  - apply surjective_pairing.
  - vm_compute. apply list_elem_of_here.
  - vm_compute. reflexivity.
  - vm_compute. reflexivity.
  - vm_compute. reflexivity.
  - reflexivity.
  - vm_compute. reflexivity.
  - reflexivity.
  - vm_compute. reflexivity.
Defined.
